(** * Numerical hyperparameters of BTB: a shallow embedding

    This development embeds [btb/tuning/hyperparams/numerical.py] and
    proves (or refutes) the properties its specification states.

    Arithmetic.  The Python code computes with binary64 floats.  Finite
    floats are modelled by exact rationals ([Q]): rounding error, overflow
    and the sign of zero are idealised away.  The special values that the
    code tests for or that numpy produces instead of raising ([inf],
    [-inf], [nan]) are kept, as the type [pyfloat].  Equality of rationals
    is [Qeq] ([==]).

    Arrays.  The hooks [_transform] and [_inverse_transform] are written
    with numpy broadcasting, so they act element by element: they are
    modelled on one element, and lifted to arrays with [map]. *)

From Stdlib Require Import ZArith QArith Qround Lia Lqa List.
Import ListNotations.

Open Scope Q_scope.

(** ** Python and numpy primitives used by the module *)

(** Exceptions the constructors can raise. *)
Inductive exn : Set :=
| ZeroDivisionError.

(** Outcome of a Python call that may raise. *)
Inductive result (A : Type) : Type :=
| Ok (a : A)
| Raise (e : exn).

Arguments Ok {A} a.
Arguments Raise {A} e.

Definition bind {A B : Type} (r : result A) (k : A -> result B) : result B :=
  match r with
  | Ok a => k a
  | Raise e => Raise e
  end.

Notation "x <- r ;; k" := (bind r (fun x => k))
  (at level 61, r at next level, right associativity).

(** Python's [a / b] on scalars: true division, raising on a zero divisor. *)
Definition py_truediv (a b : Q) : result Q :=
  if Qeq_bool b 0 then Raise ZeroDivisionError else Ok (a / b).

(** [sys.maxsize] on a 64-bit build. *)
Definition sys_maxsize : Z := 2 ^ 63 - 1.

(** [sys.maxsize / 2]: the exact quotient [(2^63 - 1) / 2] is not a
    binary64 number; Python's correctly rounded division returns [2^62]. *)
Definition sys_maxsize_half : Z := 2 ^ 62.

(** [sys.float_info.max], the largest finite binary64:
    [(2^53 - 1) * 2^971]. *)
Definition float_info_max : Q := inject_Z ((2 ^ 53 - 1) * 2 ^ 971).

(** [sys.float_info.min], the smallest positive normalised binary64:
    [2^-1022]. *)
Definition float_info_min : Q := 1 / inject_Z (2 ^ 1022).

(** A float: a finite value, an infinity or a nan. *)
Inductive pyfloat : Set :=
| NaN
| NegInf
| Fin (q : Q)
| PosInf.

(** [np.inf] and [-np.inf]. *)
Definition np_inf : pyfloat := PosInf.
Definition np_neg_inf : pyfloat := NegInf.

(** Python's [x == y] on floats (a nan equals nothing). *)
Definition feqb (x y : pyfloat) : bool :=
  match x, y with
  | NegInf, NegInf => true
  | PosInf, PosInf => true
  | Fin a, Fin b => Qeq_bool a b
  | _, _ => false
  end.

(** The same as a proposition. *)
Definition feq (x y : pyfloat) : Prop :=
  match x, y with
  | NegInf, NegInf => True
  | PosInf, PosInf => True
  | Fin a, Fin b => a == b
  | _, _ => False
  end.

Definition fneg (x : pyfloat) : pyfloat :=
  match x with
  | NaN => NaN
  | NegInf => PosInf
  | Fin q => Fin (- q)
  | PosInf => NegInf
  end.

Definition fadd (x y : pyfloat) : pyfloat :=
  match x, y with
  | NaN, _ | _, NaN => NaN
  | Fin a, Fin b => Fin (a + b)
  | PosInf, NegInf | NegInf, PosInf => NaN
  | PosInf, _ | _, PosInf => PosInf
  | NegInf, _ | _, NegInf => NegInf
  end.

Definition fsub (x y : pyfloat) : pyfloat := fadd x (fneg y).

(** An infinity [i] scaled by a finite factor [q]: the sign follows [q],
    and a zero factor gives a nan. *)
Definition scale_inf (i : pyfloat) (q : Q) : pyfloat :=
  match q ?= 0 with
  | Gt => i
  | Lt => fneg i
  | Eq => NaN
  end.

Definition fmul (x y : pyfloat) : pyfloat :=
  match x, y with
  | NaN, _ | _, NaN => NaN
  | Fin a, Fin b => Fin (a * b)
  | Fin a, i => scale_inf i a
  | i, Fin b => scale_inf i b
  | PosInf, PosInf | NegInf, NegInf => PosInf
  | PosInf, NegInf | NegInf, PosInf => NegInf
  end.

(** numpy's element-wise [x / y]: a zero divisor does not raise, it gives
    an infinity (or a nan for [0 / 0]); the zero is taken as [+0.0]. *)
Definition fdiv (x y : pyfloat) : pyfloat :=
  match x, y with
  | NaN, _ | _, NaN => NaN
  | Fin a, Fin b =>
      if Qeq_bool b 0 then scale_inf PosInf a else Fin (a / b)
  | Fin _, _ => Fin 0
  | i, Fin b => if Qeq_bool b 0 then i else scale_inf i b
  | _, _ => NaN
  end.

(** [ndarray.round()]: to the nearest integer, a tie going to the even
    neighbour (numpy rounds half to even). *)
Definition np_round (q : Q) : Z :=
  let f := Qfloor q in
  match Qcompare (q - inject_Z f) (1 # 2) with
  | Lt => f
  | Gt => (f + 1)%Z
  | Eq => if Z.even f then f else (f + 1)%Z
  end.

(** [np.random.random((n, k))]: [n] rows of [k] draws from [[0, 1)].  The
    generator is the stream [draw] of the values it hands out, in order. *)
Definition np_random_random (draw : nat -> Q) (n k : nat) : list (list Q) :=
  map (fun r => map (fun c => draw (r * k + c)%nat) (seq 0 k)) (seq 0 n).

(** ** [FloatHyperParam] *)
Module FloatHyperParam.

Record t : Set := mk {
  include_min : bool;
  include_max : bool;
  min : pyfloat;
  max : pyfloat;
  range : pyfloat
}.

Definition K : nat := 1.

(** [__init__(self, min=None, max=None, include_min=True, include_max=True)] *)
Definition init (min max : option pyfloat) (include_min include_max : bool) : t :=
  let min :=
    match min with
    | None => Fin float_info_min
    | Some m => if feqb m (fneg np_inf) then Fin float_info_min else m
    end in
  let max :=
    match max with
    | None => Fin float_info_max
    | Some m => if feqb m np_inf then Fin float_info_max else m
    end in
  mk include_min include_max min max (fsub max min).

(** [values * self.range + self.min] *)
Definition _inverse_transform (self : t) (values : pyfloat) : pyfloat :=
  fadd (fmul values (range self)) (min self).

(** [(values - self.min) / self.range] *)
Definition _transform (self : t) (values : pyfloat) : pyfloat :=
  fdiv (fsub values (min self)) (range self).

(** [np.random.random((n_samples, self.K))] *)
Definition sample (self : t) (draw : nat -> Q) (n_samples : nat) : list (list Q) :=
  np_random_random draw n_samples K.

End FloatHyperParam.

(** ** [IntHyperParam] *)
Module IntHyperParam.

Record t : Set := mk {
  include_min : bool;
  include_max : bool;
  min : Z;
  max : Z;
  step : Z;
  range : Q;
  interval : Q
}.

Definition K : nat := 1.

(** [__init__(self, min=None, max=None, include_min=True,
    include_max=True, step=1)], for integer [min], [max] and [step]
    ([int(min)] is then [min]).  The two divisions are Python scalar
    divisions and raise on a zero divisor. *)
Definition init (min max : option Z) (include_min include_max : bool)
    (step : Z) : result t :=
  let min := match min with None => (- sys_maxsize_half)%Z | Some m => m end in
  let max := match max with None => sys_maxsize_half | Some m => m end in
  let self_min := if include_min then min else (min + 1)%Z in
  let self_max := if include_max then max else (max - 1)%Z in
  q <- py_truediv (inject_Z (self_max - self_min)) (inject_Z step) ;;
  let self_range := q + 1 in
  self_interval <- py_truediv 1 self_range ;;
  Ok (mk include_min include_max self_min self_max step self_range self_interval).

(** [unscaled_values = values / self.interval - 0.5 + self.min].  The
    interval of a constructed instance is never zero, so the division is
    always a genuine one. *)
Definition unscaled_values (self : t) (values : Q) : Q :=
  values / interval self - (1 # 2) + inject_Z (min self).

(** [_inverse_transform]: round, then
    [np.minimum(np.maximum(rounded, self.min), self.max)]. *)
Definition _inverse_transform (self : t) (values : Q) : Z :=
  let rounded := np_round (unscaled_values self values) in
  let restricted := Z.min (Z.max rounded (min self)) (max self) in
  restricted.

(** [(values - self.min + 0.5) * self.interval] *)
Definition _transform (self : t) (values : Z) : Q :=
  (inject_Z values - inject_Z (min self) + (1 # 2)) * interval self.

(** Modelled from the spec: the public [inverse_transform] and
    [transform] of [BaseHyperParam] (base.py is not among the sources)
    reshape their argument and delegate the numeric work to the hooks;
    on the two-dimensional array that [sample] passes, this is the hook
    applied element-wise. *)
Definition inverse_transform (self : t) (values : list (list Q)) : list (list Z) :=
  map (map (_inverse_transform self)) values.

Definition transform (self : t) (values : list (list Z)) : list (list Q) :=
  map (map (_transform self)) values.

Definition sample (self : t) (draw : nat -> Q) (n_samples : nat) : list (list Q) :=
  let sampled := np_random_random draw n_samples K in
  let inverted := inverse_transform self sampled in
  transform self inverted.

End IntHyperParam.

(** ** Rounding to the nearest integer *)
Section Rounding.

(** Case analysis on the comparison that [np_round] performs. *)
Ltac round_cases q :=
  unfold np_round;
  pose proof (Qfloor_le q);
  pose proof (Qlt_floor q);
  destruct (Qcompare_spec (q - inject_Z (Qfloor q)) (1 # 2)).



Lemma np_round_upper (q : Q) (z : Z) : q <= inject_Z z -> (np_round q <= z)%Z.
Proof.
  intros U.
  assert (F : (Qfloor q <= z)%Z)
    by (rewrite Zle_Qle; pose proof (Qfloor_le q); lra).
  round_cases q; try assumption;
    assert (S : (Qfloor q < z)%Z) by (rewrite Zlt_Qlt; lra);
    try destruct (Z.even (Qfloor q)); lia.
Qed.

Lemma np_round_lower (q : Q) (z : Z) : inject_Z z <= q -> (z <= np_round q)%Z.
Proof.
  intros L.
  assert (F : (z <= Qfloor q)%Z).
  { apply Qfloor_resp_le in L. now rewrite Qfloor_Z in L. }
  round_cases q; try destruct (Z.even (Qfloor q)); lia.
Qed.


End Rounding.

(** ** The examples of the docstrings *)
Section DocExamples.

(** [sys.maxsize / 2] lies half a unit below the float it is rounded to. *)
Example sys_maxsize_half_rounded :
  inject_Z sys_maxsize_half - inject_Z sys_maxsize / 2 == 1 # 2.
Proof. reflexivity. Qed.

(** [IntHyperParam(1, 4)]: [transform([1, 4])] is [[0.125, 0.875]],
    [transform(3)] is [0.625], and [inverse_transform] maps them back. *)
Example int_doc_example :
  exists hp,
    IntHyperParam.init (Some 1%Z) (Some 4%Z) true true 1 = Ok hp /\
    IntHyperParam._transform hp 1 == 0.125 /\
    IntHyperParam._transform hp 4 == 0.875 /\
    IntHyperParam._transform hp 3 == 0.625 /\
    map (IntHyperParam._inverse_transform hp) [0.125; 0.875; 0.625]
    = [1; 4; 3]%Z.
Proof.
  eexists. split; [reflexivity|]. repeat split.
Qed.

(** [FloatHyperParam(0.1, 0.9)]: [transform([0.1, 0.9])] is [[0., 1.]],
    [transform(0.8)] is [0.875], and [inverse_transform(0.875)] is [0.8]. *)
Example float_doc_example :
  let hp := FloatHyperParam.init (Some (Fin 0.1)) (Some (Fin 0.9)) true true in
  feq (FloatHyperParam._transform hp (Fin 0.1)) (Fin 0) /\
  feq (FloatHyperParam._transform hp (Fin 0.9)) (Fin 1) /\
  feq (FloatHyperParam._transform hp (Fin 0.8)) (Fin 0.875) /\
  feq (FloatHyperParam._inverse_transform hp (Fin 0)) (Fin 0.1) /\
  feq (FloatHyperParam._inverse_transform hp (Fin 1)) (Fin 0.9) /\
  feq (FloatHyperParam._inverse_transform hp (Fin 0.875)) (Fin 0.8).
Proof.
  repeat split.
Qed.

(** Rounding of ties, as numpy does it. *)
Example np_round_ties :
  map np_round [(1 # 2); (3 # 2); (5 # 2); -(1 # 2); -(3 # 2); -(5 # 2)]
  = [0; 2; 2; 0; -2; -2]%Z.
Proof. reflexivity. Qed.

End DocExamples.

(** ** Construction of an [IntHyperParam] *)
Section IntConstruction.

Import IntHyperParam.

Lemma py_truediv_ok (a b q : Q) :
  py_truediv a b = Ok q -> ~ b == 0 /\ q = a / b.
Proof.
  unfold py_truediv. destruct (Qeq_bool b 0) eqn:E; [discriminate|].
  intros [= <-]. split; [now apply Qeq_bool_neq | reflexivity].
Qed.

Lemma py_truediv_raise (a b : Q) (e : exn) :
  py_truediv a b = Raise e <-> b == 0.
Proof.
  unfold py_truediv. destruct (Qeq_bool b 0) eqn:E; split; intros H.
  - now apply Qeq_bool_iff.
  - now destruct e.
  - discriminate.
  - apply Qeq_bool_neq in E. contradiction.
Qed.

(** What a successful construction stores. *)
Lemma init_ok (mn mx : option Z) (imn imx : bool) (st : Z) (hp : t) :
  init mn mx imn imx st = Ok hp ->
  let lo := match mn with None => (- sys_maxsize_half)%Z | Some m => m end in
  let hi := match mx with None => sys_maxsize_half | Some m => m end in
  min hp = (if imn then lo else lo + 1)%Z /\
  max hp = (if imx then hi else hi - 1)%Z /\
  step hp = st /\
  st <> 0%Z /\
  range hp = inject_Z (max hp - min hp) / inject_Z st + 1 /\
  ~ range hp == 0 /\
  interval hp = 1 / range hp.
Proof.
  intros H lo hi. unfold init in H. fold lo hi in H.
  set (smin := (if imn then lo else lo + 1)%Z) in *.
  set (smax := (if imx then hi else hi - 1)%Z) in *.
  destruct (py_truediv (inject_Z (smax - smin)) (inject_Z st)) as [q|e] eqn:D1;
    [|discriminate].
  cbn [bind] in H.
  destruct (py_truediv 1 (q + 1)) as [r|e] eqn:D2; [|discriminate].
  cbn [bind] in H. injection H as <-. cbn.
  apply py_truediv_ok in D1 as [N1 ->].
  apply py_truediv_ok in D2 as [N2 ->].
  repeat split; try assumption.
  intros ->. now apply N1.
Qed.

(** With a step of at least one and [min <= max], the range is at least
    one, and the interval is positive. *)
Lemma init_ok_positive (mn mx : option Z) (imn imx : bool) (st : Z) (hp : t) :
  init mn mx imn imx st = Ok hp ->
  (1 <= st)%Z -> (min hp <= max hp)%Z ->
  1 <= range hp /\ 0 < interval hp.
Proof.
  intros H S B.
  destruct (init_ok _ _ _ _ _ _ H) as (_ & _ & _ & _ & R & _ & I).
  assert (P : 0 < inject_Z st)
    by (change 0 with (inject_Z 0); rewrite <- Zlt_Qlt; lia).
  assert (D : 0 <= inject_Z (max hp - min hp))
    by (change 0 with (inject_Z 0); rewrite <- Zle_Qle; lia).
  assert (Q0 : 0 <= inject_Z (max hp - min hp) / inject_Z st).
  { apply Qle_shift_div_l; [assumption | lra]. }
  assert (R1 : 1 <= range hp) by (rewrite R; lra).
  split; [assumption|].
  rewrite I. apply Qlt_shift_div_l; lra.
Qed.

End IntConstruction.

(** ** The stepped variant: rounding and clamping *)
Section IntTransforms.

Import IntHyperParam.

Variable self : t.





(** A value whose unscaled image does not exceed [min] is sent to [min]. *)
Lemma inverse_below (v : Q) :
  (min self <= max self)%Z ->
  unscaled_values self v <= inject_Z (min self) ->
  _inverse_transform self v = min self.
Proof.
  intros B U. unfold _inverse_transform.
  pose proof (np_round_upper _ _ U). lia.
Qed.

(** A value whose unscaled image is at least [max] is sent to [max]. *)
Lemma inverse_above (v : Q) :
  (min self <= max self)%Z ->
  inject_Z (max self) <= unscaled_values self v ->
  _inverse_transform self v = max self.
Proof.
  intros B U. unfold _inverse_transform.
  pose proof (np_round_lower _ _ U). lia.
Qed.

End IntTransforms.

Section IntClaims.

Import IntHyperParam.





(** The lower half of the boundary clamp: [0.0], and every value below
    half an interval, is sent to [min]. *)
Lemma int_lower_boundary (mn mx : option Z) (imn imx : bool) (st : Z) (hp : t) (v : Q) :
  init mn mx imn imx st = Ok hp ->
  (1 <= st)%Z ->
  (min hp <= max hp)%Z ->
  v < (1 # 2) * interval hp ->
  _inverse_transform hp v = min hp.
Proof.
  intros H S B V.
  destruct (init_ok_positive _ _ _ _ _ _ H S B) as [_ P].
  apply inverse_below; [assumption|].
  unfold unscaled_values.
  assert (D : v / interval hp <= 1 # 2)
    by (apply Qle_shift_div_r; [assumption | lra]).
  lra.
Qed.

Lemma int_zero_to_min (mn mx : option Z) (imn imx : bool) (st : Z) (hp : t) :
  init mn mx imn imx st = Ok hp ->
  (1 <= st)%Z ->
  (min hp <= max hp)%Z ->
  _inverse_transform hp 0 = min hp.
Proof.
  intros H S B.
  destruct (init_ok_positive _ _ _ _ _ _ H S B) as [_ P].
  apply (int_lower_boundary _ _ _ _ _ _ _ H S B). lra.
Qed.

(** The upper half holds when the step is one: [1.0], and every value
    from half an interval below one, is sent to [max]. *)
Lemma int_upper_boundary_unit_step (mn mx : option Z) (imn imx : bool) (hp : t) (v : Q) :
  init mn mx imn imx 1 = Ok hp ->
  (min hp <= max hp)%Z ->
  1 - (1 # 2) * interval hp <= v ->
  _inverse_transform hp v = max hp.
Proof.
  intros H B V.
  destruct (init_ok_positive _ _ _ _ _ _ H ltac:(lia) B) as [R1 P].
  destruct (init_ok _ _ _ _ _ _ H) as (_ & _ & _ & _ & R & N & I).
  apply inverse_above; [assumption|].
  unfold unscaled_values.
  assert (E : inject_Z (max hp) == range hp - 1 + inject_Z (min hp)).
  { rewrite R. unfold Z.sub. rewrite inject_Z_plus, inject_Z_opp.
    change (inject_Z 1) with 1. field. }
  assert (D : range hp - (1 # 2) <= v / interval hp).
  { apply Qle_shift_div_l; [assumption|].
    assert (X : range hp * interval hp == 1) by (rewrite I; field; exact N).
    lra. }
  lra.
Qed.

(** C4, at [IntHyperParam(0, 9, step=3)]: the lattice is [{0, 3, 6, 9}],
    yet [inverse_transform(1.0)] is [4], and the values just below one
    give [3]: the upper boundary does not resolve to [max = 9]. *)
Theorem int_upper_boundary_step3 :
  exists hp, init (Some 0%Z) (Some 9%Z) true true 3 = Ok hp /\
             (min hp <= max hp)%Z /\ max hp = 9%Z /\
             _inverse_transform hp 0 = 0%Z /\
             _inverse_transform hp 1 = 4%Z /\
             _inverse_transform hp (99 # 100) = 3%Z.
Proof.
  eexists. split; [reflexivity|].
  repeat split; vm_compute; congruence.
Qed.

End IntClaims.

Section IntSampling.

Import IntHyperParam.

(** [sample] snaps every drawn value to the canonical position of its
    lattice point. *)
Lemma sample_is_snap (hp : t) (draw : nat -> Q) (n : nat) :
  sample hp draw n
  = map (map (fun u => _transform hp (_inverse_transform hp u)))
        (np_random_random draw n K).
Proof.
  unfold sample, transform, inverse_transform.
  rewrite map_map. apply map_ext. intros row. now rewrite map_map.
Qed.

(** Shape of a sample: [n_samples] rows of [K = 1] values. *)
Lemma sample_shape (hp : t) (draw : nat -> Q) (n : nat) :
  length (sample hp draw n) = n /\
  Forall (fun row => length row = K) (sample hp draw n).
Proof.
  rewrite sample_is_snap. unfold np_random_random.
  split.
  - now rewrite !length_map, length_seq.
  - rewrite !Forall_map. apply Forall_forall. intros r _.
    now rewrite !length_map, length_seq.
Qed.



End IntSampling.

Section IntBounds.

Import IntHyperParam.

(** C8 as stated fails: with [step = 2], excluding the bounds of
    [0 .. 10] gives the effective bounds [1] and [9], not [0 + step]
    and [10 - step]. *)
Lemma int_exclusion_not_by_step :
  exists hp, init (Some 0%Z) (Some 10%Z) false false 2 = Ok hp /\
             min hp = 1%Z /\ min hp <> (0 + 2)%Z /\
             max hp = 9%Z /\ max hp <> (10 - 2)%Z.
Proof.
  eexists. split; [reflexivity|]. cbn. repeat split; lia.
Qed.

(** C8, amended. An excluded bound is shifted inward by one, whatever
    the step: the effective [min] is [min + 1] when [include_min] is
    false, the effective [max] is [max - 1] when [include_max] is false;
    [range] and [interval] are computed from the shifted bounds. *)
Theorem int_exclusion_shifts_by_one (mn mx : Z) (imn imx : bool) (st : Z) (hp : t) :
  init (Some mn) (Some mx) imn imx st = Ok hp ->
  min hp = (if imn then mn else mn + 1)%Z /\
  max hp = (if imx then mx else mx - 1)%Z /\
  range hp == inject_Z (max hp - min hp) / inject_Z st + 1 /\
  interval hp == 1 / range hp.
Proof.
  intros H.
  destruct (init_ok _ _ _ _ _ _ H) as (A & B & _ & _ & R & _ & I).
  cbn zeta in A, B. rewrite <- R, <- I. now repeat split.
Qed.

Lemma int_exclusion_shifts_by_one_witness :
  exists hp, init (Some 0%Z) (Some 10%Z) false false 2 = Ok hp /\
             min hp = 1%Z /\ max hp = 9%Z /\
             range hp == inject_Z (max hp - min hp) / inject_Z 2 + 1 /\
             interval hp == 1 / range hp.
Proof.
  eexists. split; [reflexivity|].
  apply (int_exclusion_shifts_by_one 0 10 false false 2). reflexivity.
Defined.



End IntBounds.

(** ** The continuous variant *)
Section FloatConstruction.

Import FloatHyperParam.

(** Construction from two finite bounds stores them unchanged, with
    [range = max - min]. *)
Lemma float_init_finite (mn mx : Q) (imn imx : bool) :
  init (Some (Fin mn)) (Some (Fin mx)) imn imx
  = mk imn imx (Fin mn) (Fin mx) (Fin (mx + - mn)).
Proof. reflexivity. Qed.


Lemma float_inverse_finite (mn mx v : Q) (imn imx : bool) :
  _inverse_transform (init (Some (Fin mn)) (Some (Fin mx)) imn imx) (Fin v)
  = Fin (v * (mx + - mn) + mn).
Proof. reflexivity. Qed.

(** An absent or infinite upper bound is replaced by the largest finite
    float. *)
Lemma float_default_max (mn : option pyfloat) (imn imx : bool) :
  max (init mn None imn imx) = Fin float_info_max /\
  max (init mn (Some np_inf) imn imx) = Fin float_info_max.
Proof. split; reflexivity. Qed.

End FloatConstruction.

Section FloatClaims.

Import FloatHyperParam.



(** C7, at [FloatHyperParam()] and [FloatHyperParam(min=-inf)]: the
    stored [min] is [sys.float_info.min], a positive number, and not the
    most negative finite float [-sys.float_info.max]. *)
Theorem float_default_min_positive (mx : option pyfloat) (imn imx : bool) :
  min (init None mx imn imx) = Fin float_info_min /\
  min (init (Some np_neg_inf) mx imn imx) = Fin float_info_min /\
  0 < float_info_min /\
  ~ float_info_min == - float_info_max.
Proof.
  repeat split; try reflexivity. vm_compute. discriminate.
Qed.

End FloatClaims.

(** ** Properties shared by the two variants *)
Section Construction.






End Construction.

Section Monotonicity.



End Monotonicity.

(** ** Further facts on rounding *)
Section RoundingMore.




(** Rounding is non-decreasing. *)
Lemma np_round_mono (x y : Q) : x <= y -> (np_round x <= np_round y)%Z.
Proof.
  intros L.
  pose proof (Qfloor_resp_le _ _ L) as F.
  destruct (Z.eq_dec (Qfloor x) (Qfloor y)) as [E|N].
  - unfold np_round. rewrite E.
    destruct (Qcompare_spec (x - inject_Z (Qfloor y)) (1 # 2)) as [E1|L1|G1];
      destruct (Qcompare_spec (y - inject_Z (Qfloor y)) (1 # 2)) as [E2|L2|G2];
      try destruct (Z.even (Qfloor y)); try lia; exfalso; lra.
  - assert (U : (np_round x <= Qfloor x + 1)%Z).
    { unfold np_round.
      destruct (Qcompare (x - inject_Z (Qfloor x)) (1 # 2));
        try destruct (Z.even (Qfloor x)); lia. }
    assert (D : (Qfloor y <= np_round y)%Z).
    { unfold np_round.
      destruct (Qcompare (y - inject_Z (Qfloor y)) (1 # 2));
        try destruct (Z.even (Qfloor y)); lia. }
    lia.
Qed.

End RoundingMore.

(** ** More on the construction of an [IntHyperParam] *)
Section IntConstructionMore.

Import IntHyperParam.







End IntConstructionMore.

(** ** More on the transforms of an [IntHyperParam] *)
Section IntTransformsMore.

Import IntHyperParam.

(** The unscaled value grows with the normalized one when the interval is
    positive. *)
Lemma unscaled_mono (hp : t) (u1 u2 : Q) :
  0 < interval hp -> u1 <= u2 ->
  unscaled_values hp u1 <= unscaled_values hp u2.
Proof.
  intros P L. unfold unscaled_values.
  assert (D : u1 / interval hp <= u2 / interval hp).
  { unfold Qdiv. apply Qmult_le_compat_r; [exact L|].
    apply Qinv_le_0_compat. lra. }
  lra.
Qed.








(** X5. [inverse_transform] is non-decreasing in the normalized value. *)
Theorem int_inverse_monotone (mn mx : option Z) (imn imx : bool) (st : Z) (hp : t) (u1 u2 : Q) :
  init mn mx imn imx st = Ok hp ->
  (1 <= st)%Z ->
  (min hp <= max hp)%Z ->
  u1 <= u2 ->
  (_inverse_transform hp u1 <= _inverse_transform hp u2)%Z.
Proof.
  intros H S B L.
  destruct (init_ok_positive _ _ _ _ _ _ H S B) as [_ P].
  pose proof (np_round_mono _ _ (unscaled_mono hp u1 u2 P L)).
  unfold _inverse_transform. lia.
Qed.

Lemma int_inverse_monotone_witness :
  exists hp,
    init (Some 1%Z) (Some 4%Z) true true 1 = Ok hp /\
    (_inverse_transform hp (3 # 10) <= _inverse_transform hp (7 # 10))%Z.
Proof.
  eexists. split; [reflexivity|].
  apply (int_inverse_monotone (Some 1%Z) (Some 4%Z) true true 1);
    [reflexivity | lia | simpl; lia | discriminate].
Defined.



End IntTransformsMore.

(** ** The unit step, and larger steps *)
Section IntSteps.

Import IntHyperParam.





(** The quotient by a step of at least two is at most one half. *)
Lemma half_quotient (d s : Q) : 0 <= d -> 2 <= s -> d / s <= d * (1 # 2).
Proof.
  intros D S.
  apply Qle_shift_div_r; [lra|].
  assert (X : 0 <= (d * (1 # 2)) * (s - 2))
    by (apply Qmult_le_0_compat; lra).
  assert (Y : d * (1 # 2) * s == d * (1 # 2) * (s - 2) + d) by ring.
  rewrite Y. lra.
Qed.

Lemma step_range_bound (mn mx : option Z) (imn imx : bool) (st : Z) (hp : t) :
  init mn mx imn imx st = Ok hp ->
  (2 <= st)%Z ->
  (min hp <= max hp)%Z ->
  range hp <= (inject_Z (max hp) - inject_Z (min hp)) * (1 # 2) + 1.
Proof.
  intros H S B.
  destruct (init_ok _ _ _ _ _ _ H) as (_ & _ & _ & _ & R & _ & _).
  rewrite R. unfold Z.sub. rewrite inject_Z_plus, inject_Z_opp.
  assert (D : 0 <= inject_Z (max hp) + - inject_Z (min hp))
    by (rewrite Zle_Qle in B; lra).
  assert (S2 : 2 <= inject_Z st)
    by (change 2 with (inject_Z 2); now rewrite <- Zle_Qle).
  pose proof (half_quotient _ _ D S2). lra.
Qed.

(** X10. With a step of at least two and at least two lattice points,
    [transform] sends [max] beyond one: outside the unit interval. *)
Theorem int_step_transform_exceeds_one (mn mx : option Z) (imn imx : bool) (st : Z) (hp : t) :
  init mn mx imn imx st = Ok hp ->
  (2 <= st)%Z ->
  (st <= max hp - min hp)%Z ->
  1 < _transform hp (max hp).
Proof.
  intros H S B.
  assert (B' : (min hp <= max hp)%Z) by lia.
  destruct (init_ok_positive _ _ _ _ _ _ H ltac:(lia) B') as [R1 P].
  destruct (init_ok _ _ _ _ _ _ H) as (_ & _ & _ & _ & _ & N & I).
  pose proof (step_range_bound _ _ _ _ _ _ H S B') as RB.
  assert (D : 2 <= inject_Z (max hp) - inject_Z (min hp)).
  { assert (Z2 : (2 <= max hp - min hp)%Z) by lia.
    rewrite Zle_Qle in Z2. unfold Z.sub in Z2.
    rewrite inject_Z_plus, inject_Z_opp in Z2. exact Z2. }
  unfold _transform. rewrite I.
  setoid_replace ((inject_Z (max hp) - inject_Z (min hp) + (1 # 2)) * (1 / range hp))
    with ((inject_Z (max hp) - inject_Z (min hp) + (1 # 2)) / range hp)
    by (field; exact N).
  apply Qlt_shift_div_l; lra.
Qed.

Lemma int_step_transform_exceeds_one_witness :
  exists hp,
    init (Some 0%Z) (Some 9%Z) true true 3 = Ok hp /\
    1 < _transform hp (max hp).
Proof.
  eexists. split; [reflexivity|].
  apply (int_step_transform_exceeds_one (Some 0%Z) (Some 9%Z) true true 3);
    [reflexivity | lia | simpl; lia].
Defined.



End IntSteps.

(** ** More on the continuous variant *)
Section FloatMore.

Import FloatHyperParam.











End FloatMore.

Section FloatEdges.

Import FloatHyperParam.

(** X17. Equal bounds: the instance is built with a range of zero.  Nothing
    is raised afterwards either: [transform] divides by that zero and
    gives an infinity of the sign of [v - min], or a nan at [min] itself;
    [inverse_transform] sends every finite value to [min]. *)
Theorem float_equal_bounds (c v u : Q) (imn imx : bool) :
  (exists r, range (init (Some (Fin c)) (Some (Fin c)) imn imx) = Fin r /\ r == 0) /\
  (c < v -> _transform (init (Some (Fin c)) (Some (Fin c)) imn imx) (Fin v) = PosInf) /\
  (v < c -> _transform (init (Some (Fin c)) (Some (Fin c)) imn imx) (Fin v) = NegInf) /\
  (v == c -> _transform (init (Some (Fin c)) (Some (Fin c)) imn imx) (Fin v) = NaN) /\
  feq (_inverse_transform (init (Some (Fin c)) (Some (Fin c)) imn imx) (Fin u)) (Fin c).
Proof.
  rewrite float_inverse_finite, float_init_finite.
  assert (Z0 : Qeq_bool (c + - c) 0 = true) by (apply Qeq_bool_iff; ring).
  assert (T : _transform (mk imn imx (Fin c) (Fin c) (Fin (c + - c))) (Fin v)
              = scale_inf PosInf (v + - c)).
  { unfold _transform. cbn. now rewrite Z0. }
  rewrite T. unfold scale_inf.
  split; [|split; [|split; [|split]]].
  - eexists. split; [reflexivity | ring].
  - intros G. assert (C : (v + - c ?= 0) = Gt) by (apply -> Qgt_alt; lra).
    now rewrite C.
  - intros L. assert (C : (v + - c ?= 0) = Lt) by (apply -> Qlt_alt; lra).
    now rewrite C.
  - intros E. assert (C : (v + - c ?= 0) = Eq) by (apply -> Qeq_alt; lra).
    now rewrite C.
  - cbn. ring.
Qed.

Lemma float_equal_bounds_witness :
  _transform (init (Some (Fin 3)) (Some (Fin 3)) true true) (Fin 5) = PosInf /\
  _transform (init (Some (Fin 3)) (Some (Fin 3)) true true) (Fin 1) = NegInf /\
  _transform (init (Some (Fin 3)) (Some (Fin 3)) true true) (Fin 3) = NaN.
Proof.
  split; [|split].
  - apply (float_equal_bounds 3 5 0 true true). reflexivity.
  - apply (float_equal_bounds 3 1 0 true true). reflexivity.
  - apply (float_equal_bounds 3 3 0 true true). reflexivity.
Defined.



End FloatEdges.

Section IntSampleShape.

Import IntHyperParam.


End IntSampleShape.
